(** * The tool-calling orchestrator of [backend/ai_generator.py]

    A shallow embedding of the class [AIGenerator]: the system-instruction
    builder, the conversion of tool definitions, [generate_response] and
    [_handle_tool_execution].  The provider client and the tool manager are
    collaborators outside the file; they are taken as functions over an
    abstract world [W], and every call to them is logged in a trace so that
    the number, the order and the arguments of the calls can be stated. *)

From Stdlib Require Import ZArith.
From stdpp Require Import base option list strings gmap.

Local Open Scope string_scope.
Local Open Scope list_scope.

(** ** Python exceptions and fallible results *)

Inductive exn : Type :=
| KeyError (key : string)      (* d[key] on a dict without that key *)
| IndexError                   (* l[0] on an empty list *)
| TypeError                    (* iterating None, or [**None] *)
| Raised (what : string).      (* raised by the provider or by a tool *)

Inductive result (A : Type) : Type :=
| Ok (a : A)
| Raise (e : exn).
Arguments Ok {A} a.
Arguments Raise {A} e.

#[global] Instance result_ret : MRet result := λ A a, Ok a.
#[global] Instance result_bind : MBind result := λ A B f r,
  match r with
  | Ok a => f a
  | Raise e => Raise e
  end.
#[global] Instance result_fmap : FMap result := λ A B f r,
  match r with
  | Ok a => Ok (f a)
  | Raise e => Raise e
  end.

(** ** The provider's data types ([google.genai.types]) *)

Module types.
Section types.
Variable Value : Type.

(** [fn_call.name], [fn_call.args]; the SDK leaves [args] at [None] when the
    model sends none. *)
Record FunctionCall : Type := {
  name : string;
  args : option (gmap string Value)
}.

Inductive Part : Type :=
| Part_text (text : string)
| Part_function_call (function_call : FunctionCall)
| from_function_response (name : string) (response : gmap string Value).

Record Content : Type := {
  role : string;
  parts : list Part
}.

Record FunctionDeclaration : Type := {
  fd_name : Value;
  description : Value;
  parameters : Value
}.

Record Tool : Type := {
  function_declarations : list FunctionDeclaration
}.

Record GenerateContentConfig : Type := {
  system_instruction : string;
  temperature : Z;
  max_output_tokens : Z;
  tools : option (list Tool)
}.

Record Candidate : Type := {
  content : Content
}.

(** The three attributes of a response that the orchestrator reads. *)
Record GenerateContentResponse : Type := {
  text : option string;
  function_calls : option (list FunctionCall);
  candidates : list Candidate
}.

End types.

Arguments name {Value} _.
Arguments args {Value} _.
Arguments Part_text {Value} text.
Arguments Part_function_call {Value} function_call.
Arguments from_function_response {Value} name response.
Arguments role {Value} _.
Arguments parts {Value} _.
Arguments fd_name {Value} _.
Arguments description {Value} _.
Arguments parameters {Value} _.
Arguments function_declarations {Value} _.
Arguments system_instruction {Value} _.
Arguments temperature {Value} _.
Arguments max_output_tokens {Value} _.
Arguments tools {Value} _.
Arguments content {Value} _.
Arguments text {Value} _.
Arguments function_calls {Value} _.
Arguments candidates {Value} _.
End types.

(** ** Python truthiness of the optional arguments *)

(** [if conversation_history]: [None] and the empty string are falsy. *)
Definition truthy_str (o : option string) : bool :=
  match o with
  | Some s => bool_decide (s ≠ "")
  | None => false
  end.

(** [if tools], [if response.function_calls]: [None] and [[]] are falsy. *)
Definition truthy_list {A : Type} (o : option (list A)) : bool :=
  match o with
  | Some (_ :: _) => true
  | _ => false
  end.

(** The text between the system prompt and the history in the f-string of
    [generate_response]: two newlines, the heading, one newline. *)
Definition newline : string := String (Ascii.ascii_of_nat 10) "".
Definition previous_conversation : string :=
  newline +:+ newline +:+ "Previous conversation:" +:+ newline.

(** ** The orchestrator *)

Section AIGenerator.
Variables Value W : Type.

Abbreviation FunctionCall := (types.FunctionCall Value).
Abbreviation Part := (types.Part Value).
Abbreviation Content := (types.Content Value).
Abbreviation FunctionDeclaration := (types.FunctionDeclaration Value).
Abbreviation Tool := (types.Tool Value).
Abbreviation GenerateContentConfig := (types.GenerateContentConfig Value).
Abbreviation GenerateContentResponse := (types.GenerateContentResponse Value).

(** [self.client.models.generate_content(model=, contents=, config=)]: it
    answers or raises, and may change the world. *)
Record Client : Type := {
  generate_content :
    string → list Content → GenerateContentConfig → W →
    result GenerateContentResponse * W
}.

(** [tool_manager.execute_tool(name, **kwargs)]. *)
Record ToolManager : Type := {
  execute_tool : string → gmap string Value → W → result Value * W
}.

(** The instance: [self.client], [self.model] and the class attribute
    [SYSTEM_PROMPT]. *)
Record AIGenerator : Type := {
  client : Client;
  model : string;
  SYSTEM_PROMPT : string
}.

(** What the collaborators saw, in the order of the calls.  A provider call
    is logged with the contents and the config as they are at the moment of
    the call. *)
Inductive Event : Type :=
| ProviderCall (model : string) (contents : list Content)
    (config : GenerateContentConfig) (outcome : result GenerateContentResponse)
| ToolCall (name : string) (kwargs : gmap string Value) (outcome : result Value).

(** State and exceptions: a computation maps the world and the trace so far
    to a result and the world and trace after it.  A raised exception keeps
    the trace up to the point of failure. *)
Definition M (A : Type) : Type := W * list Event → result A * (W * list Event).

#[global] Instance M_ret : MRet M := λ A a st, (Ok a, st).
#[global] Instance M_bind : MBind M := λ A B f m st,
  match m st with
  | (Ok a, st') => f a st'
  | (Raise e, st') => (Raise e, st')
  end.

Definition lift {A : Type} (r : result A) : M A := λ st, (r, st).

Definition call_provider (c : Client) (model : string) (contents : list Content)
    (config : GenerateContentConfig) : M GenerateContentResponse :=
  λ '(w, tr),
    let '(o, w') := generate_content c model contents config w in
    (o, (w', tr ++ [ProviderCall model contents config o])).

Definition call_tool (tm : ToolManager) (name : string)
    (kwargs : gmap string Value) : M Value :=
  λ '(w, tr),
    let '(o, w') := execute_tool tm name kwargs w in
    (o, (w', tr ++ [ToolCall name kwargs o])).

(** [tool_def[key]] *)
Definition getitem (tool_def : gmap string Value) (key : string) : result Value :=
  match tool_def !! key with
  | Some v => Ok v
  | None => Raise (KeyError key)
  end.

(** The loop of [_build_gemini_tools], with the list [declarations] it
    appends to. *)
Fixpoint build_declarations (tools : list (gmap string Value))
    (declarations : list FunctionDeclaration) : result (list FunctionDeclaration) :=
  match tools with
  | [] => Ok declarations
  | tool_def :: rest =>
      n ← getitem tool_def "name";
      d ← getitem tool_def "description";
      p ← getitem tool_def "parameters";
      build_declarations rest
        (declarations ++
           [{| types.fd_name := n; types.description := d; types.parameters := p |}])
  end.

(** Lines 37-46: one [types.Tool] holding a declaration per definition. *)
Definition _build_gemini_tools (self : AIGenerator)
    (tools : list (gmap string Value)) : result (list Tool) :=
  declarations ← build_declarations tools [];
  Ok [{| types.function_declarations := declarations |}].

(** Lines 66-70: the system instruction. *)
Definition system_instruction (self : AIGenerator)
    (conversation_history : option string) : string :=
  if truthy_str conversation_history
  then SYSTEM_PROMPT self +:+ previous_conversation
         +:+ default "" conversation_history
  else SYSTEM_PROMPT self.

(** [config.tools = ts] *)
Definition set_tools (config : GenerateContentConfig)
    (ts : option (list Tool)) : GenerateContentConfig :=
  {| types.system_instruction := types.system_instruction config;
     types.temperature := types.temperature config;
     types.max_output_tokens := types.max_output_tokens config;
     types.tools := ts |}.

(** Lines 73-81: the config of the first call. *)
Definition initial_config (self : AIGenerator)
    (conversation_history : option string)
    (tools : option (list (gmap string Value))) : result GenerateContentConfig :=
  let config :=
    {| types.system_instruction := system_instruction self conversation_history;
       types.temperature := 0;
       types.max_output_tokens := 800;
       types.tools := None |} in
  if truthy_list tools
  then ts ← _build_gemini_tools self (default [] tools);
       Ok (set_tools config (Some ts))
  else Ok config.

(** Line 84: the message list of the first call. *)
Definition user_message (query : string) : list Content :=
  [{| types.role := "user"; types.parts := [types.Part_text query] |}].

(** The loop of [_handle_tool_execution], with the list
    [tool_response_parts] it appends to. *)
Fixpoint execute_calls (tool_manager : ToolManager)
    (calls : list FunctionCall) (tool_response_parts : list Part) : M (list Part) :=
  match calls with
  | [] => mret tool_response_parts
  | fn_call :: rest =>
      kwargs ← lift (match types.args fn_call with
                     | Some kw => Ok kw
                     | None => Raise TypeError
                     end);
      tool_result ← call_tool tool_manager (types.name fn_call) kwargs;
      execute_calls tool_manager rest
        (tool_response_parts ++
           [types.from_function_response (types.name fn_call)
              {[ "result" := tool_result ]}])
  end.

(** Lines 100-142.  [contents.append] and [config.tools = None] change the
    caller's objects in place; the caller returns right after, so the updates
    are written as new values.  No exception is caught here. *)
Definition _handle_tool_execution (self : AIGenerator)
    (initial_response : GenerateContentResponse) (contents : list Content)
    (config : GenerateContentConfig) (tool_manager : ToolManager)
    : M (option string) :=
  first ← lift (match types.candidates initial_response with
                | c :: _ => Ok c
                | [] => Raise IndexError
                end);
  let contents := contents ++ [types.content first] in
  calls ← lift (match types.function_calls initial_response with
                | Some l => Ok l
                | None => Raise TypeError
                end);
  tool_response_parts ← execute_calls tool_manager calls [];
  let contents :=
    contents ++ [{| types.role := "user"; types.parts := tool_response_parts |}] in
  let config := set_tools config None in
  final_response ← call_provider (client self) (model self) contents config;
  mret (types.text final_response).

(** Lines 48-98.  [if response.function_calls and tool_manager]: the first
    operand is falsy for [None] and for the empty list, the second, an
    object, only for [None]. *)
Definition generate_response (self : AIGenerator) (query : string)
    (conversation_history : option string)
    (tools : option (list (gmap string Value)))
    (tool_manager : option ToolManager) : M (option string) :=
  config ← lift (initial_config self conversation_history tools);
  let contents := user_message query in
  response ← call_provider (client self) (model self) contents config;
  match truthy_list (types.function_calls response), tool_manager with
  | true, Some tm => _handle_tool_execution self response contents config tm
  | _, _ => mret (types.text response)
  end.

(** A run from a world with an empty trace. *)
Definition run {A : Type} (m : M A) (w : W) : result A * (W * list Event) :=
  m (w, []).

(** ** Reading a trace *)

Definition is_provider_call (ev : Event) : bool :=
  match ev with
  | ProviderCall _ _ _ _ => true
  | ToolCall _ _ _ => false
  end.

Definition provider_calls (tr : list Event) : list Event :=
  List.filter is_provider_call tr.

Definition tool_calls (tr : list Event) : list Event :=
  List.filter (λ ev, negb (is_provider_call ev)) tr.

(** The part built for a request whose execution returned [v], and the
    event that execution leaves in the trace. *)
Definition tool_part (fn_call : FunctionCall) (v : Value) : Part :=
  types.from_function_response (types.name fn_call) {[ "result" := v ]}.

Definition tool_event (fn_call : FunctionCall) (v : Value) : Event :=
  ToolCall (types.name fn_call) (default ∅ (types.args fn_call)) (Ok v).

(** [tools_return tm w calls vs w']: from world [w], every request of
    [calls] carries arguments and the tool manager returns for each, in
    order, the values [vs], ending in world [w']. *)
Inductive tools_return (tm : ToolManager) : W → list FunctionCall → list Value → W → Prop :=
| tools_return_nil w :
    tools_return tm w [] [] w
| tools_return_cons w fn_call kwargs v w1 rest vs w2 :
    types.args fn_call = Some kwargs →
    execute_tool tm (types.name fn_call) kwargs w = (Ok v, w1) →
    tools_return tm w1 rest vs w2 →
    tools_return tm w (fn_call :: rest) (v :: vs) w2.

(** A definition and the declaration made from it agree on the three keys. *)
Definition declares (tool_def : gmap string Value)
    (decl : FunctionDeclaration) : Prop :=
  tool_def !! "name" = Some (types.fd_name decl) ∧
  tool_def !! "description" = Some (types.description decl) ∧
  tool_def !! "parameters" = Some (types.parameters decl).

(** The turn that carries the tool results back to the model. *)
Definition results_turn (parts : list Part) : Content :=
  {| types.role := "user"; types.parts := parts |}.

(** A part carries the value an execution returned, under the one key
    [result], and the name the execution was asked for. *)
Definition wraps (part : Part) (ev : Event) : Prop :=
  ∃ name kwargs v,
    ev = ToolCall name kwargs (Ok v) ∧
    part = types.from_function_response name {[ "result" := v ]}.

(** ** Reading a catalog *)

(** A definition with the three keys [_build_gemini_tools] reads. *)
Definition complete (tool_def : gmap string Value) : Prop :=
  is_Some (tool_def !! "name") ∧
  is_Some (tool_def !! "description") ∧
  is_Some (tool_def !! "parameters").

(** The first key a definition lacks, in the order the keys are read. *)
Definition first_missing (tool_def : gmap string Value) : option string :=
  match tool_def !! "name", tool_def !! "description", tool_def !! "parameters" with
  | None, _, _ => Some "name"
  | Some _, None, _ => Some "description"
  | Some _, Some _, None => Some "parameters"
  | Some _, Some _, Some _ => None
  end.

(** Two definitions with the same entries under the three keys. *)
Definition same_declaration (d1 d2 : gmap string Value) : Prop :=
  d1 !! "name" = d2 !! "name" ∧
  d1 !! "description" = d2 !! "description" ∧
  d1 !! "parameters" = d2 !! "parameters".

(** ** Reading executions *)

(** An event is the execution of a request: the tool manager was called
    with the request's name and its arguments. *)
Definition executes (ev : Event) (fn_call : FunctionCall) : Prop :=
  ∃ kwargs outcome,
    types.args fn_call = Some kwargs ∧
    ev = ToolCall (types.name fn_call) kwargs outcome.

(** The call behind an event returned. *)
Definition event_ok (ev : Event) : bool :=
  match ev with
  | ProviderCall _ _ _ (Ok _) | ToolCall _ _ (Ok _) => true
  | _ => false
  end.

(** The requests of a response, none when the attribute is [None]. *)
Definition requests (response : GenerateContentResponse) : list FunctionCall :=
  default [] (types.function_calls response).

End AIGenerator.

Arguments generate_content {Value W} _ _ _ _ _.
Arguments execute_tool {Value W} _ _ _ _.
Arguments Build_Client {Value W} _.
Arguments Build_ToolManager {Value W} _.
Arguments Build_AIGenerator {Value W} _ _ _.
Arguments client {Value W} _.
Arguments model {Value W} _.
Arguments SYSTEM_PROMPT {Value W} _.
Arguments ProviderCall {Value} _ _ _ _.
Arguments ToolCall {Value} _ _ _.
Arguments lift {Value W A} _.
Arguments call_provider {Value W} _ _ _ _.
Arguments call_tool {Value W} _ _ _.
Arguments getitem {Value} _ _.
Arguments build_declarations {Value} _ _.
Arguments _build_gemini_tools {Value W} _ _.
Arguments system_instruction {Value W} _ _.
Arguments set_tools {Value} _ _.
Arguments initial_config {Value W} _ _ _.
Arguments user_message {Value} _.
Arguments execute_calls {Value W} _ _ _.
Arguments _handle_tool_execution {Value W} _ _ _ _ _.
Arguments generate_response {Value W} _ _ _ _ _.
Arguments run {Value W A} _.
Arguments is_provider_call {Value} _.
Arguments provider_calls {Value} _.
Arguments tool_calls {Value} _.
Arguments tool_part {Value} _ _.
Arguments tool_event {Value} _ _.
Arguments tools_return {Value W} _ _ _ _ _.
Arguments declares {Value} _ _.
Arguments results_turn {Value} _.
Arguments wraps {Value} _ _.
Arguments complete {Value} _.
Arguments first_missing {Value} _.
Arguments same_declaration {Value} _ _.
Arguments executes {Value} _ _.
Arguments event_ok {Value} _.
Arguments requests {Value} _.

(** ** A course-search scenario

    Values are strings and the world counts the calls made to the
    collaborators.  The scripted provider asks for the given tool calls when
    it is handed a single message and answers in text otherwise. *)

Module Scenario.

Definition search_schema : gmap string string :=
  {[ "name" := "search_course_content";
     "description" := "Search course materials";
     "parameters" := "{course: string, lesson: integer}" ]}.

Definition search_call : types.FunctionCall string :=
  {| types.name := "search_course_content";
     types.args := Some {[ "course" := "X"; "lesson" := "3" ]} |}.

Definition outline_call : types.FunctionCall string :=
  {| types.name := "get_course_outline";
     types.args := Some {[ "course" := "X" ]} |}.

Definition model_turn (calls : list (types.FunctionCall string)) : types.Content string :=
  {| types.role := "model"; types.parts := types.Part_function_call <$> calls |}.

Definition asks_for (calls : list (types.FunctionCall string))
    : types.GenerateContentResponse string :=
  {| types.text := None;
     types.function_calls := Some calls;
     types.candidates := [{| types.content := model_turn calls |}] |}.

Definition says (answer : string) : types.GenerateContentResponse string :=
  {| types.text := Some answer;
     types.function_calls := None;
     types.candidates :=
       [{| types.content :=
             {| types.role := "model"; types.parts := [types.Part_text answer] |} |}] |}.

Definition scripted (calls : list (types.FunctionCall string)) (answer : string)
    : Client string nat :=
  {| generate_content := λ _ contents _ w,
       match contents, calls with
       | [_], _ :: _ => (Ok (asks_for calls), S w)
       | _, _ => (Ok (says answer), S w)
       end |}.

(** Knows the search tool only; any other name raises. *)
Definition search_only : ToolManager string nat :=
  {| execute_tool := λ name _ w,
       if decide (name = "search_course_content")
       then (Ok "Lesson 3 covers sorting algorithms.", S w)
       else (Raise (Raised "NotFoundError"), S w) |}.

Definition tutor (c : Client string nat) : AIGenerator string nat :=
  {| client := c; model := "gemini-2.0-flash"; SYSTEM_PROMPT := "You are a tutor." |}.

Definition lesson4_call : types.FunctionCall string :=
  {| types.name := "search_course_content";
     types.args := Some {[ "course" := "X"; "lesson" := "4" ]} |}.

(** A request that came without arguments. *)
Definition bare_call : types.FunctionCall string :=
  {| types.name := "search_course_content"; types.args := None |}.

(** The search definition with a key the builder does not read. *)
Definition versioned_schema : gmap string string :=
  <[ "version" := "2" ]> search_schema.


(** A provider that cannot be reached. *)
Definition unreachable : Client string nat :=
  {| generate_content := λ _ _ _ w, (Raise (Raised "ServiceUnavailable"), S w) |}.

(** A provider that asks for the given tool calls and then fails. *)
Definition drops_followup (calls : list (types.FunctionCall string))
    : Client string nat :=
  {| generate_content := λ _ contents _ w,
       match contents with
       | [_] => (Ok (asks_for calls), S w)
       | _ => (Raise (Raised "ServiceUnavailable"), S w)
       end |}.

Definition question : string := "What does lesson 3 of Course X cover?".
Definition final_answer : string :=
  "Lesson 3 covers sorting algorithms, including quicksort and mergesort.".

End Scenario.

(** ** Running the monad *)

Section Facts.
Context {Value W : Type}.
Implicit Types (self : AIGenerator Value W) (tm : ToolManager Value W).
Implicit Types (w : W) (tr evs : list (Event Value)).
Implicit Types (calls : list (types.FunctionCall Value)) (vs : list Value).
Implicit Types (cfg : types.GenerateContentConfig Value).
Implicit Types (r : types.GenerateContentResponse Value).

Lemma bind_Ok {A B} (m : M Value W A) (f : A → M Value W B) st a st' :
  m st = (Ok a, st') → (m ≫= f) st = f a st'.
Proof. intros H. unfold mbind, M_bind. by rewrite H. Qed.

Lemma bind_Raise {A B} (m : M Value W A) (f : A → M Value W B) st e st' :
  m st = (Raise e, st') → (m ≫= f) st = (Raise e, st').
Proof. intros H. unfold mbind, M_bind. by rewrite H. Qed.

Lemma bind_lift_Ok {A B} (a : A) (f : A → M Value W B) st :
  (lift (Ok a) ≫= f) st = f a st.
Proof. reflexivity. Qed.

Lemma bind_lift_Raise {A B} e (f : A → M Value W B) st :
  (lift (Raise e) ≫= f) st = (Raise e, st).
Proof. reflexivity. Qed.

Lemma call_tool_eq tm name kwargs w tr :
  call_tool tm name kwargs (w, tr) =
  ((execute_tool tm name kwargs w).1,
   ((execute_tool tm name kwargs w).2,
    tr ++ [ToolCall name kwargs (execute_tool tm name kwargs w).1])).
Proof. unfold call_tool. by destruct (execute_tool _ _ _ _). Qed.

Lemma call_provider_eq (c : Client Value W) m cs cfg w tr :
  call_provider c m cs cfg (w, tr) =
  ((generate_content c m cs cfg w).1,
   ((generate_content c m cs cfg w).2,
    tr ++ [ProviderCall m cs cfg (generate_content c m cs cfg w).1])).
Proof. unfold call_provider. by destruct (generate_content _ _ _ _ _). Qed.

(** *** The tool loop *)

(** When every execution returns, the loop returns one part per request, in
    the order of the requests, after one execution per request. *)
Lemma execute_calls_returns tm w calls vs w' :
  tools_return tm w calls vs w' →
  ∀ acc tr,
    execute_calls tm calls acc (w, tr) =
    (Ok (acc ++ zip_with tool_part calls vs),
     (w', tr ++ zip_with tool_event calls vs)).
Proof.
  induction 1 as [w|w fn_call kwargs v w1 rest vs w2 Hargs Hexec _ IH];
    intros acc tr; simpl.
  - by rewrite !app_nil_r.
  - rewrite Hargs, bind_lift_Ok.
    erewrite bind_Ok; last by rewrite call_tool_eq, Hexec.
    rewrite IH. unfold tool_part at 2, tool_event at 2.
    rewrite Hargs. simpl. by rewrite <-!app_assoc.
Qed.

(** Whatever the tool manager does, the loop only adds executions to the
    trace, and the parts it returns wrap, one for one and in order, the
    values those executions returned. *)
Lemma execute_calls_trace tm calls :
  ∀ acc w tr res w' tr',
    execute_calls tm calls acc (w, tr) = (res, (w', tr')) →
    ∃ evs, tr' = tr ++ evs ∧
      Forall (λ ev, is_provider_call ev = false) evs ∧
      ∀ parts, res = Ok parts → ∃ new, parts = acc ++ new ∧ Forall2 wraps new evs.
Proof.
  induction calls as [|fn_call rest IH]; intros acc w tr res w' tr' Hrun; simpl in Hrun.
  - inversion Hrun; subst. exists []. rewrite app_nil_r. split_and!; [done|constructor|].
    intros parts [= <-]. exists []. by rewrite app_nil_r.
  - destruct (types.args fn_call) as [kwargs|].
    2:{ rewrite bind_lift_Raise in Hrun. inversion Hrun; subst.
        exists []. rewrite app_nil_r. split_and!; [done|constructor|done]. }
    rewrite bind_lift_Ok in Hrun.
    destruct (execute_tool tm (types.name fn_call) kwargs w) as [[v|e] w1] eqn:Hexec.
    + erewrite bind_Ok in Hrun; last by rewrite call_tool_eq, Hexec.
      apply IH in Hrun as (evs & -> & Hevs & Hparts).
      exists (ToolCall (types.name fn_call) kwargs (Ok v) :: evs).
      split_and!.
      * by rewrite <-app_assoc.
      * by constructor.
      * intros parts Hres. destruct (Hparts parts Hres) as (new & -> & Hnew).
        eexists (_ :: new). split; [by rewrite <-app_assoc|].
        constructor; [|done]. by eexists _, _, _.
    + erewrite bind_Raise in Hrun; last by rewrite call_tool_eq, Hexec.
      inversion Hrun; subst.
      exists [ToolCall (types.name fn_call) kwargs (Raise e)].
      split_and!; [done|by repeat constructor|done].
Qed.

(** *** The tool round *)

(** The tool round when every execution returns: the follow-up call is made
    with the model's turn and the results turn appended, and tools removed. *)
Lemma handle_tool_execution_returns self r cs cfg tm w tr c0 cands calls vs w2 :
  types.candidates r = c0 :: cands →
  types.function_calls r = Some calls →
  tools_return tm w calls vs w2 →
  let contents2 :=
    (cs ++ [types.content c0]) ++ [results_turn (zip_with tool_part calls vs)] in
  let cfg2 := set_tools cfg None in
  let out2 := generate_content (client self) (model self) contents2 cfg2 w2 in
  _handle_tool_execution self r cs cfg tm (w, tr) =
  (types.text <$> out2.1,
   (out2.2,
    (tr ++ zip_with tool_event calls vs)
      ++ [ProviderCall (model self) contents2 cfg2 out2.1])).
Proof.
  intros Hc Hf Hret. simpl. unfold _handle_tool_execution.
  rewrite Hc, bind_lift_Ok, Hf, bind_lift_Ok.
  erewrite bind_Ok; last by apply execute_calls_returns.
  rewrite app_nil_l.
  unfold mbind, M_bind. rewrite call_provider_eq. unfold results_turn.
  by destruct (generate_content _ _ _ _ _) as [[r2|e] w3].
Qed.

(** Every way the tool round can end: an exception before the follow-up
    call, or the follow-up call as the last event, its outcome handed back. *)
Lemma handle_tool_execution_cases self r cs cfg tm w tr res w' tr' :
  _handle_tool_execution self r cs cfg tm (w, tr) = (res, (w', tr')) →
  (∃ e evs, res = Raise e ∧ tr' = tr ++ evs ∧
     Forall (λ ev, is_provider_call ev = false) evs)
  ∨ (∃ c0 parts evs o2,
       head (types.candidates r) = Some c0 ∧
       tr' = (tr ++ evs)
               ++ [ProviderCall (model self)
                     ((cs ++ [types.content c0]) ++ [results_turn parts])
                     (set_tools cfg None) o2] ∧
       Forall (λ ev, is_provider_call ev = false) evs ∧
       Forall2 wraps parts evs ∧
       res = types.text <$> o2).
Proof.
  unfold _handle_tool_execution. intros Hrun.
  destruct (types.candidates r) as [|c0 cands].
  { rewrite bind_lift_Raise in Hrun. inversion Hrun; subst.
    left. exists IndexError, []. by rewrite app_nil_r. }
  rewrite bind_lift_Ok in Hrun.
  destruct (types.function_calls r) as [calls|].
  2:{ rewrite bind_lift_Raise in Hrun. inversion Hrun; subst.
      left. exists TypeError, []. by rewrite app_nil_r. }
  rewrite bind_lift_Ok in Hrun.
  destruct (execute_calls tm calls [] (w, tr)) as [[parts|e] [w1 tr1]] eqn:Hloop.
  - destruct (execute_calls_trace _ _ _ _ _ _ _ _ Hloop) as (evs & -> & Hevs & Hparts).
    destruct (Hparts parts eq_refl) as (new & -> & Hnew). rewrite app_nil_l in *.
    erewrite bind_Ok in Hrun; last done.
    unfold mbind, M_bind in Hrun. rewrite call_provider_eq in Hrun.
    right. exists c0, new, evs.
    destruct (generate_content _ _ _ _ _) as [[r2|e] w3]; simpl in Hrun;
      inversion Hrun; subst; eexists; by split_and!.
  - destruct (execute_calls_trace _ _ _ _ _ _ _ _ Hloop) as (evs & -> & Hevs & _).
    erewrite bind_Raise in Hrun; last done.
    inversion Hrun; subst. left. by exists e, evs.
Qed.

(** *** The first call and the decision *)

Lemma generate_response_no_config self query h tools otm w e :
  initial_config self h tools = Raise e →
  run (generate_response self query h tools otm) w = (Raise e, (w, [])).
Proof. intros H. unfold run, generate_response. by rewrite H. Qed.

Lemma generate_response_first_call self query h tools otm w cfg :
  initial_config self h tools = Ok cfg →
  let out1 := generate_content (client self) (model self) (user_message query) cfg w in
  let first := ProviderCall (model self) (user_message query) cfg out1.1 in
  run (generate_response self query h tools otm) w =
  match out1.1 with
  | Ok r =>
      match truthy_list (types.function_calls r), otm with
      | true, Some tm =>
          _handle_tool_execution self r (user_message query) cfg tm (out1.2, [first])
      | _, _ => (Ok (types.text r), (out1.2, [first]))
      end
  | Raise e => (Raise e, (out1.2, [first]))
  end.
Proof.
  intros H. simpl. unfold run, generate_response.
  rewrite H, bind_lift_Ok. unfold mbind, M_bind. rewrite call_provider_eq.
  destruct (generate_content _ _ _ _ _) as [[r|e] w1]; simpl; [|done].
  by destruct (truthy_list _), otm.
Qed.

(** *** The config of the first call *)

Lemma build_declarations_Ok (defs : list (gmap string Value)) :
  ∀ acc decls,
    build_declarations defs acc = Ok decls →
    ∃ new, decls = acc ++ new ∧ Forall2 declares defs new.
Proof.
  induction defs as [|d defs IH]; intros acc decls; simpl.
  - intros [= <-]. exists []. by rewrite app_nil_r.
  - unfold getitem.
    destruct (d !! "name") as [n|] eqn:Hn; [|done].
    destruct (d !! "description") as [ds|] eqn:Hd; [|done].
    destruct (d !! "parameters") as [ps|] eqn:Hp; [|done].
    simpl. intros (new & -> & Hnew)%IH.
    eexists (_ :: new). split; [by rewrite <-app_assoc|].
    by constructor.
Qed.


Lemma initial_config_Ok self h tools cfg :
  initial_config self h tools = Ok cfg →
  types.system_instruction cfg = system_instruction self h ∧
  types.temperature cfg = 0%Z ∧
  types.max_output_tokens cfg = 800%Z ∧
  match tools with
  | Some (d :: defs) =>
      ∃ decls, types.tools cfg = Some [{| types.function_declarations := decls |}] ∧
        Forall2 declares (d :: defs) decls
  | _ => types.tools cfg = None
  end.
Proof.
  unfold initial_config. destruct tools as [[|d defs]|]; simpl.
  1,3: by intros [= <-].
  unfold _build_gemini_tools.
  destruct (build_declarations (d :: defs) []) as [decls|e] eqn:Hb; simpl; [|done].
  intros [= <-]. simpl. split_and!; try done.
  apply build_declarations_Ok in Hb as (new & -> & Hnew). by exists new.
Qed.


(** *** Traces of tool executions *)

Lemma tool_events_not_provider calls vs :
  Forall (λ ev : Event Value, is_provider_call ev = false) (zip_with tool_event calls vs).
Proof.
  revert vs. induction calls as [|c calls IH]; intros [|v vs]; simpl; by constructor.
Qed.

Lemma provider_calls_app tr1 tr2 :
  provider_calls (tr1 ++ tr2) = provider_calls tr1 ++ provider_calls tr2.
Proof. apply List.filter_app. Qed.

Lemma tool_calls_app tr1 tr2 :
  tool_calls (tr1 ++ tr2) = tool_calls tr1 ++ tool_calls tr2.
Proof. apply List.filter_app. Qed.

Lemma provider_calls_tools evs :
  Forall (λ ev, is_provider_call ev = false) evs → provider_calls evs = [].
Proof. induction 1 as [|ev evs Hev _ IH]; simpl; [done|]. by rewrite Hev. Qed.

Lemma tool_calls_tools evs :
  Forall (λ ev, is_provider_call ev = false) evs → tool_calls evs = evs.
Proof. induction 1 as [|ev evs Hev _ IH]; simpl; [done|]. by rewrite Hev, IH. Qed.


(** The loop stops at the first execution that raises. *)
Lemma execute_calls_raises tm w pre vs w2 :
  tools_return tm w pre vs w2 →
  ∀ fn_call kwargs e w3 post acc tr,
    types.args fn_call = Some kwargs →
    execute_tool tm (types.name fn_call) kwargs w2 = (Raise e, w3) →
    execute_calls tm (pre ++ fn_call :: post) acc (w, tr) =
    (Raise e,
     (w3, (tr ++ zip_with tool_event pre vs)
            ++ [ToolCall (types.name fn_call) kwargs (Raise e)])).
Proof.
  induction 1 as [w|w c kw v w1 rest vs w2 Hargs Hexec _ IH];
    intros fn_call kwargs e w3 post acc tr Ha He; simpl.
  - rewrite Ha, bind_lift_Ok, app_nil_r.
    erewrite bind_Raise; [done|]. by rewrite call_tool_eq, He.
  - rewrite Hargs, bind_lift_Ok.
    erewrite bind_Ok; last by rewrite call_tool_eq, Hexec.
    erewrite IH by done. unfold tool_event at 2. rewrite Hargs. simpl.
    by rewrite <-!app_assoc.
Qed.

End Facts.

Lemma string_app_same_l (s1 s2 : string) : s1 +:+ s2 = s1 → s2 = "".
Proof.
  induction s1 as [|a s1 IH]; [done|].
  change (String a s1 +:+ s2) with (String a (s1 +:+ s2)).
  intros [= H]. by apply IH.
Qed.

Lemma string_length_app (s1 s2 : string) :
  String.length (s1 +:+ s2) = String.length s1 + String.length s2.
Proof. induction s1 as [|a s1 IH]; simpl; [done|]. by rewrite <-IH. Qed.

(** *** Every shape a run can take *)

Lemma generate_response_cases {Value W} (self : AIGenerator Value W)
    (query : string) (h : option string) (tools : option (list (gmap string Value)))
    (otm : option (ToolManager Value W)) (w : W) :
  let out := run (generate_response self query h tools otm) w in
  (∃ e, initial_config self h tools = Raise e ∧ out = (Raise e, (w, [])))
  ∨ (∃ cfg o evs,
       initial_config self h tools = Ok cfg ∧
       out.2.2 = [ProviderCall (model self) (user_message query) cfg o] ++ evs ∧
       Forall (λ ev, is_provider_call ev = false) evs)
  ∨ (∃ cfg r1 c0 parts evs o2,
       initial_config self h tools = Ok cfg ∧
       head (types.candidates r1) = Some c0 ∧
       out.2.2 =
         ([ProviderCall (model self) (user_message query) cfg (Ok r1)] ++ evs)
           ++ [ProviderCall (model self)
                 ((user_message query ++ [types.content c0]) ++ [results_turn parts])
                 (set_tools cfg None) o2] ∧
       Forall (λ ev, is_provider_call ev = false) evs ∧
       Forall2 wraps parts evs ∧
       out.1 = types.text <$> o2).
Proof.
  intros out. subst out.
  destruct (initial_config self h tools) as [cfg|e] eqn:Hcfg.
  2:{ left. exists e. by rewrite (generate_response_no_config _ _ _ _ _ _ _ Hcfg). }
  right. rewrite (generate_response_first_call _ _ _ _ _ _ _ Hcfg).
  destruct (generate_content _ _ _ _ _) as [[r|e] w1]; simpl.
  2:{ left. by eexists cfg, _, []. }
  destruct (truthy_list _), otm as [tm|]; try (left; by eexists cfg, _, []).
  destruct (_handle_tool_execution _ _ _ _ _ _) as [res [w' tr']] eqn:Hrun.
  apply handle_tool_execution_cases in Hrun
    as [(e & evs & -> & -> & Hevs)|(c0 & parts & evs & o2 & Hc0 & -> & Hevs & Hw & ->)].
  - left. by eexists cfg, _, evs.
  - right. by eexists cfg, r, c0, parts, evs, o2.
Qed.

Lemma tools_return_lookup {Value W} (tm : ToolManager Value W) w calls vs w' :
  tools_return tm w calls vs w' →
  length vs = length calls ∧
  ∀ i fn_call, calls !! i = Some fn_call →
    ∃ kwargs v, types.args fn_call = Some kwargs ∧ vs !! i = Some v.
Proof.
  induction 1 as [w|w c kw v w1 rest vs w2 Hargs Hexec _ [IHlen IH]]; simpl.
  - split; [done|]. by intros i fn_call.
  - split; [by rewrite IHlen|].
    intros [|i] fn_call; simpl; [|by apply IH].
    intros [= <-]. by eexists _, _.
Qed.

(** * The system instruction *)

Example previous_conversation_text :
  previous_conversation =
  String (Ascii.ascii_of_nat 10) (String (Ascii.ascii_of_nat 10)
    ("Previous conversation:" +:+ String (Ascii.ascii_of_nat 10) ""))
  ∧ String.length previous_conversation = 25.
Proof. by vm_compute. Qed.

(** C6, as the code has it: for every base instruction, a history that is
    absent or the empty string gives the base instruction unchanged; any
    other history gives the base instruction, then the previous-conversation
    heading, then the history itself, whole: the result is exactly as long
    as the three together. *)
Theorem system_instruction_spec {Value W} (self : AIGenerator Value W)
    (conversation_history : option string) :
  match conversation_history with
  | None | Some EmptyString =>
      system_instruction self conversation_history = SYSTEM_PROMPT self
  | Some history =>
      system_instruction self conversation_history =
        SYSTEM_PROMPT self +:+ previous_conversation +:+ history
      ∧ String.length (system_instruction self conversation_history) =
          String.length (SYSTEM_PROMPT self) + 25 + String.length history
  end.
Proof.
  destruct conversation_history as [[|a history]|]; [done| |done].
  unfold system_instruction. simpl. split; [done|].
  rewrite !string_length_app.
  destruct previous_conversation_text as [_ ->]. simpl. lia.
Qed.

(** C6 as stated fails: the empty history is present, yet no
    previous-conversation section is appended. *)
Lemma system_instruction_empty_history_no_section :
  let self := Scenario.tutor (Scenario.scripted [] Scenario.final_answer) in
  system_instruction self (Some "") = "You are a tutor."
  ∧ system_instruction self (Some "")
      ≠ SYSTEM_PROMPT self +:+ previous_conversation +:+ "".
Proof. split; [reflexivity|]. vm_compute. discriminate. Qed.

(** C8: the builder is a function of the base instruction and the history
    alone: equal inputs give equal outputs, whatever client and model the
    instance holds; an absent history gives the base instruction; and
    building it touches neither the world nor the trace, so the first
    provider call is the first event and is made in the initial world. *)
Theorem system_instruction_pure {Value W} (self1 self2 : AIGenerator Value W)
    (h1 h2 : option string) :
  SYSTEM_PROMPT self1 = SYSTEM_PROMPT self2 →
  h1 = h2 →
  system_instruction self1 h1 = system_instruction self2 h2
  ∧ system_instruction self1 None = SYSTEM_PROMPT self1
  ∧ ∀ query tools otm w cfg,
      initial_config self1 h1 tools = Ok cfg →
      types.system_instruction cfg = system_instruction self1 h1 ∧
      ∃ rest,
        (run (generate_response self1 query h1 tools otm) w).2.2 =
        ProviderCall (model self1) (user_message query) cfg
          (generate_content (client self1) (model self1) (user_message query) cfg w).1
        :: rest.
Proof.
  intros Hp ->. split_and!.
  - unfold system_instruction. by rewrite Hp.
  - done.
  - intros query tools otm w cfg Hcfg. split; [by apply initial_config_Ok in Hcfg as [? _]|].
    rewrite (generate_response_first_call _ _ _ _ _ _ _ Hcfg).
    destruct (generate_content _ _ _ _ _) as [[r|e] w1]; simpl; [|by eexists].
    destruct (truthy_list _), otm as [tm|]; try by eexists.
    destruct (_handle_tool_execution _ _ _ _ _ _) as [res [w' tr']] eqn:Hrun.
    apply handle_tool_execution_cases in Hrun
      as [(e & evs & _ & -> & _)|(c0 & parts & evs & o2 & _ & -> & _)];
      simpl; by eexists.
Qed.

Lemma system_instruction_pure_witness :
  let self1 := Scenario.tutor (Scenario.scripted [] Scenario.final_answer) in
  let self2 := Scenario.tutor (Scenario.scripted [Scenario.search_call] "") in
  system_instruction self1 (Some "Q: hi") = system_instruction self2 (Some "Q: hi")
  ∧ system_instruction self1 None = SYSTEM_PROMPT self1.
Proof.
  intros self1 self2.
  destruct (system_instruction_pure self1 self2 (Some "Q: hi") (Some "Q: hi"))
    as (H1 & H2 & _); [reflexivity|reflexivity|].
  exact (conj H1 H2).
Defined.

(** C9: the empty history is treated exactly like an absent one: the
    system instruction is the bare system prompt, and the whole run of
    [generate_response] is the same.  The test is one of truthiness: the
    absent and the empty history are the falsy ones, and the only ones that
    leave the prompt bare. *)
Theorem empty_history_like_absent {Value W} (self : AIGenerator Value W)
    (query : string) (tools : option (list (gmap string Value)))
    (otm : option (ToolManager Value W)) (w : W) :
  system_instruction self (Some "") = SYSTEM_PROMPT self
  ∧ system_instruction self (Some "") = system_instruction self None
  ∧ initial_config self (Some "") tools = initial_config self None tools
  ∧ run (generate_response self query (Some "") tools otm) w =
    run (generate_response self query None tools otm) w
  ∧ (∀ h, truthy_str h = false ↔ h = None ∨ h = Some "")
  ∧ (∀ h, system_instruction self h = SYSTEM_PROMPT self ↔ h = None ∨ h = Some "").
Proof.
  assert (∀ h, truthy_str h = false ↔ h = None ∨ h = Some "") as Htruthy.
  { intros [s|]; simpl.
    - rewrite bool_decide_eq_false. split.
      + intros Hs. right. f_equal. by destruct (decide (s = "")).
      + intros [[=]|[= ->]]. by intros ?.
    - split; [by left|done]. }
  split_and!; try done.
  intros h. split.
  - unfold system_instruction. destruct (truthy_str h) eqn:Ht.
    + intros Heq%string_app_same_l. by vm_compute in Heq.
    + intros _. by apply Htruthy.
  - by intros [-> | ->].
Qed.

(** * The decision after the first call *)



(** C5, as the code has it: with no catalog supplied, when the first
    response carries no tool-call requests or no tool manager was supplied,
    there is exactly one provider call, made without tools, and its text is
    returned unchanged. *)
Theorem no_catalog_single_call {Value W} (self : AIGenerator Value W)
    (query : string) (h : option string) (otm : option (ToolManager Value W))
    (w : W) (r : types.GenerateContentResponse Value) (w1 : W) :
  let cfg :=
    {| types.system_instruction := system_instruction self h;
       types.temperature := 0;
       types.max_output_tokens := 800;
       types.tools := None |} in
  generate_content (client self) (model self) (user_message query) cfg w = (Ok r, w1) →
  truthy_list (types.function_calls r) = false ∨ otm = None →
  run (generate_response self query h None otm) w =
  (Ok (types.text r),
   (w1, [ProviderCall (model self) (user_message query) cfg (Ok r)])).
Proof.
  intros cfg Hcall Hdec.
  assert (initial_config self h None = Ok cfg) as Hcfg by done.
  rewrite (generate_response_first_call _ _ _ _ _ _ _ Hcfg).
  fold cfg. rewrite Hcall. simpl.
  destruct Hdec as [-> | ->]; [done|]. by destruct (truthy_list _).
Qed.

Lemma no_catalog_single_call_witness :
  let self := Scenario.tutor (Scenario.scripted [] "Recursion is a function calling itself.") in
  (run (generate_response self "What is recursion?" None None
          (Some Scenario.search_only)) 0).1
  = Ok (Some "Recursion is a function calling itself.").
Proof.
  intros self.
  exact (f_equal fst
    (no_catalog_single_call self "What is recursion?" None (Some Scenario.search_only) 0
       (Scenario.says "Recursion is a function calling itself.") 1
       eq_refl (or_introl eq_refl))).
Defined.

(** C5 as stated fails: no catalog is supplied, yet the provider asks for a
    tool, a tool manager is there, and two provider calls are made. *)
Lemma no_catalog_two_calls :
  let self := Scenario.tutor (Scenario.scripted [Scenario.search_call] Scenario.final_answer) in
  let out :=
    run (generate_response self Scenario.question None None
           (Some Scenario.search_only)) 0 in
  length (provider_calls out.2.2) = 2
  ∧ length (provider_calls out.2.2) ≠ 1
  ∧ out.1 = Ok (Some Scenario.final_answer).
Proof. vm_compute. split_and!; [reflexivity|discriminate|reflexivity]. Qed.

(** * The provider calls of a run *)

(** C3: every run makes no provider call (the config could not be built),
    one, or two.  When there are two, the first answered, the second is the
    last event of the run and only tool executions lie between them; the
    second is made with the first call's config with tools removed, and its
    outcome, text or failure, is the outcome of the run, whatever else the
    second response carries. *)
Theorem at_most_two_provider_calls {Value W} (self : AIGenerator Value W)
    (query : string) (h : option string) (tools : option (list (gmap string Value)))
    (otm : option (ToolManager Value W)) (w : W) :
  let out := run (generate_response self query h tools otm) w in
  (length (provider_calls out.2.2) ≤ 2)%nat
  ∧ (provider_calls out.2.2 = []
     ∨ (∃ cfg o,
          provider_calls out.2.2 =
            [ProviderCall (model self) (user_message query) cfg o])
     ∨ (∃ cfg r1 evs contents2 o2,
          let first := ProviderCall (model self) (user_message query) cfg (Ok r1) in
          let second := ProviderCall (model self) contents2 (set_tools cfg None) o2 in
          out.2.2 = ([first] ++ evs) ++ [second]
          ∧ Forall (λ ev, is_provider_call ev = false) evs
          ∧ provider_calls out.2.2 = [first; second]
          ∧ types.tools (set_tools cfg None) = None
          ∧ out.1 = types.text <$> o2)).
Proof.
  intros out.
  destruct (generate_response_cases self query h tools otm w)
    as [(e & _ & Hout)|[(cfg & o & evs & _ & Htr & Hevs)
       |(cfg & r1 & c0 & parts & evs & o2 & _ & _ & Htr & Hevs & _ & Hres)]];
    fold out in Hout || fold out in Htr.
  - rewrite Hout. simpl. split; [lia|by left].
  - assert (provider_calls out.2.2 =
            [ProviderCall (model self) (user_message query) cfg o]) as Hp.
    { by rewrite Htr, provider_calls_app, (provider_calls_tools evs). }
    rewrite Hp. simpl. split; [lia|]. right; left. by eexists _, _.
  - assert (provider_calls out.2.2 =
            [ProviderCall (model self) (user_message query) cfg (Ok r1);
             ProviderCall (model self)
               ((user_message query ++ [types.content c0]) ++ [results_turn parts])
               (set_tools cfg None) o2]) as Hp.
    { by rewrite Htr, !provider_calls_app, (provider_calls_tools evs). }
    split; [rewrite Hp; simpl; lia|]. right; right.
    by exists cfg, r1, evs,
      ((user_message query ++ [types.content c0]) ++ [results_turn parts]), o2.
Qed.

(** * The config of the first call *)



(** * The tool round *)



(** C1, as the code has it: when the tool manager raises on one of the
    requests, the earlier ones having returned, the exception leaves
    [generate_response] as it is: the later requests are not executed, the
    trace ends with the execution that raised, the first provider call stays
    the only one, and no answer is returned. *)
Theorem tool_failure_propagates {Value W} (self : AIGenerator Value W)
    (query : string) (h : option string) (tools : option (list (gmap string Value)))
    (tm : ToolManager Value W) (w : W)
    (cfg : types.GenerateContentConfig Value)
    (r : types.GenerateContentResponse Value) (w1 : W)
    (c0 : types.Candidate Value) (cands : list (types.Candidate Value))
    (pre : list (types.FunctionCall Value)) (fn_call : types.FunctionCall Value)
    (post : list (types.FunctionCall Value)) (vs : list Value) (w2 : W)
    (kwargs : gmap string Value) (e : exn) (w3 : W) :
  initial_config self h tools = Ok cfg →
  generate_content (client self) (model self) (user_message query) cfg w = (Ok r, w1) →
  types.function_calls r = Some (pre ++ fn_call :: post) →
  types.candidates r = c0 :: cands →
  tools_return tm w1 pre vs w2 →
  types.args fn_call = Some kwargs →
  execute_tool tm (types.name fn_call) kwargs w2 = (Raise e, w3) →
  let first := ProviderCall (model self) (user_message query) cfg (Ok r) in
  let out := run (generate_response self query h tools (Some tm)) w in
  out =
    (Raise e,
     (w3, [first] ++ zip_with tool_event pre vs
            ++ [ToolCall (types.name fn_call) kwargs (Raise e)]))
  ∧ provider_calls out.2.2 = [first]
  ∧ ¬ ∃ answer, out.1 = Ok answer.
Proof.
  intros Hcfg Hcall Hf Hc Hret Ha He first out.
  assert (truthy_list (types.function_calls r) = true) as Ht.
  { rewrite Hf. by destruct pre. }
  assert (Hout := generate_response_first_call self query h tools (Some tm) w cfg Hcfg).
  simpl in Hout. rewrite Hcall in Hout. simpl in Hout. rewrite Ht in Hout.
  unfold _handle_tool_execution in Hout.
  rewrite Hc, bind_lift_Ok, Hf, bind_lift_Ok in Hout.
  erewrite bind_Raise in Hout; last by eapply execute_calls_raises.
  fold first out in Hout. rewrite <-app_assoc in Hout.
  split_and!.
  - done.
  - rewrite Hout. cbn [fst snd]. rewrite !provider_calls_app.
    by rewrite (provider_calls_tools _ (tool_events_not_provider pre vs)).
  - rewrite Hout. by intros [answer [=]].
Qed.

Lemma tool_failure_propagates_witness :
  let calls := [Scenario.search_call; Scenario.outline_call; Scenario.lesson4_call] in
  let self := Scenario.tutor (Scenario.scripted calls Scenario.final_answer) in
  let out :=
    run (generate_response self Scenario.question None
           (Some [Scenario.search_schema]) (Some Scenario.search_only)) 0 in
  out.1 = Raise (Raised "NotFoundError")
  ∧ length (tool_calls out.2.2) = 2.
Proof.
  intros calls self out.
  destruct (initial_config self None (Some [Scenario.search_schema])) as [cfg|e] eqn:Hcfg;
    [|discriminate Hcfg].
  assert (tools_return Scenario.search_only 1 [Scenario.search_call]
            ["Lesson 3 covers sorting algorithms."] 2) as Hret.
  { eapply tools_return_cons; [reflexivity|reflexivity|]. apply tools_return_nil. }
  destruct (tool_failure_propagates self Scenario.question None
              (Some [Scenario.search_schema]) Scenario.search_only 0 cfg
              (Scenario.asks_for calls) 1 _ _
              [Scenario.search_call] Scenario.outline_call [Scenario.lesson4_call]
              _ 2 _ (Raised "NotFoundError") 3
              Hcfg eq_refl eq_refl eq_refl Hret eq_refl eq_refl)
    as (Heq & _ & _).
  split.
  - exact (f_equal fst Heq).
  - exact (f_equal (λ o, length (tool_calls o.2.2)) Heq).
Defined.

(** C1 as stated fails: the provider asks for two tools, the tool manager
    raises on the second, and the run ends with that exception: there is no
    follow-up call and no answer. *)
Lemma tool_failure_not_contained :
  let calls := [Scenario.search_call; Scenario.outline_call] in
  let self := Scenario.tutor (Scenario.scripted calls Scenario.final_answer) in
  let out :=
    run (generate_response self Scenario.question None
           (Some [Scenario.search_schema]) (Some Scenario.search_only)) 0 in
  execute_tool Scenario.search_only "get_course_outline" {[ "course" := "X" ]} 2
    = (Raise (Raised "NotFoundError"), 3)
  ∧ out.1 = Raise (Raised "NotFoundError")
  ∧ length (provider_calls out.2.2) = 1
  ∧ ¬ ∃ answer, out.1 = Ok answer.
Proof.
  split_and!; [reflexivity|reflexivity|reflexivity|].
  intros [answer H]. vm_compute in H. discriminate H.
Qed.



(** * Further properties of the catalog conversion *)

Section CatalogFacts.
Context {Value W : Type}.
Implicit Types (self : AIGenerator Value W).
Implicit Types (d : gmap string Value) (defs : list (gmap string Value)).
Implicit Types (acc decls : list (types.FunctionDeclaration Value)).




Lemma first_missing_None d : first_missing d = None ↔ complete d.
Proof.
  unfold first_missing, complete.
  destruct (d !! "name"), (d !! "description"), (d !! "parameters");
    split; try done; intros (Hn & Hd & Hp);
    by (destruct Hn as [? [=]] || destruct Hd as [? [=]] || destruct Hp as [? [=]]).
Qed.

Lemma build_declarations_acc defs :
  ∀ acc, build_declarations defs acc = (acc ++.) <$> build_declarations defs [].
Proof.
  induction defs as [|d defs IH]; intros acc; simpl.
  - by rewrite app_nil_r.
  - unfold getitem.
    destruct (d !! "name"); [|done].
    destruct (d !! "description"); [|done].
    destruct (d !! "parameters"); [|done]. simpl.
    rewrite (IH (acc ++ _)), (IH [_]).
    destruct (build_declarations defs []); simpl; [|done].
    by rewrite <-app_assoc.
Qed.

Lemma build_declarations_app defs1 defs2 :
  ∀ acc,
    build_declarations (defs1 ++ defs2) acc =
    build_declarations defs1 acc ≫= build_declarations defs2.
Proof.
  induction defs1 as [|d defs1 IH]; intros acc; simpl; [done|].
  unfold getitem.
  destruct (d !! "name"); [|done].
  destruct (d !! "description"); [|done].
  destruct (d !! "parameters"); [|done]. simpl. apply IH.
Qed.



Lemma build_declarations_same defs1 defs2 :
  Forall2 same_declaration defs1 defs2 →
  ∀ acc, build_declarations defs1 acc = build_declarations defs2 acc.
Proof.
  induction 1 as [|d1 d2 defs1 defs2 (Hn & Hd & Hp) _ IH]; intros acc; simpl; [done|].
  unfold getitem. rewrite Hn, Hd, Hp.
  destruct (d2 !! "name"); [|done].
  destruct (d2 !! "description"); [|done].
  destruct (d2 !! "parameters"); [|done]. simpl. apply IH.
Qed.

End CatalogFacts.




(** The conversion reads the three keys and nothing else: catalogs that
    agree, definition by definition, on [name], [description] and
    [parameters] convert to the same tools or fail with the same error, and
    [generate_response] runs the same on both. *)
Theorem catalog_other_keys_ignored {Value W} (self : AIGenerator Value W)
    (defs1 defs2 : list (gmap string Value))
    (query : string) (h : option string) (otm : option (ToolManager Value W)) (w : W) :
  Forall2 same_declaration defs1 defs2 →
  _build_gemini_tools self defs1 = _build_gemini_tools self defs2
  ∧ run (generate_response self query h (Some defs1) otm) w
    = run (generate_response self query h (Some defs2) otm) w.
Proof.
  intros Hsame.
  assert (_build_gemini_tools self defs1 = _build_gemini_tools self defs2) as Hb.
  { unfold _build_gemini_tools. by rewrite (build_declarations_same defs1 defs2). }
  split; [done|].
  assert (initial_config self h (Some defs1) = initial_config self h (Some defs2)) as Hc.
  { unfold initial_config. destruct Hsame as [|d1 d2 defs1 defs2 Hd Hrest]; [done|].
    simpl. by rewrite Hb. }
  unfold run, generate_response. by rewrite Hc.
Qed.

Lemma catalog_other_keys_ignored_witness :
  let self := Scenario.tutor (Scenario.scripted [Scenario.search_call] Scenario.final_answer) in
  _build_gemini_tools self [Scenario.versioned_schema]
  = _build_gemini_tools self [Scenario.search_schema].
Proof.
  intros self.
  refine (proj1 (catalog_other_keys_ignored self [Scenario.versioned_schema]
                   [Scenario.search_schema] Scenario.question None None 0 _)).
  repeat constructor.
Defined.

(** Converting two catalogs one after the other: when both convert, their
    concatenation converts to one tool holding the declarations of the first
    followed by those of the second; when the first fails, the concatenation
    fails the same way; when only the second fails, it fails as the second. *)
Theorem build_gemini_tools_app {Value W} (self : AIGenerator Value W)
    (defs1 defs2 : list (gmap string Value)) :
  (∀ decls1 decls2,
     _build_gemini_tools self defs1 = Ok [{| types.function_declarations := decls1 |}] →
     _build_gemini_tools self defs2 = Ok [{| types.function_declarations := decls2 |}] →
     _build_gemini_tools self (defs1 ++ defs2)
       = Ok [{| types.function_declarations := decls1 ++ decls2 |}])
  ∧ (∀ e, _build_gemini_tools self defs1 = Raise e →
       _build_gemini_tools self (defs1 ++ defs2) = Raise e)
  ∧ (∀ ts e,
       _build_gemini_tools self defs1 = Ok ts →
       _build_gemini_tools self defs2 = Raise e →
       _build_gemini_tools self (defs1 ++ defs2) = Raise e).
Proof.
  unfold _build_gemini_tools. rewrite build_declarations_app.
  destruct (build_declarations defs1 []) as [d1|e1]; simpl.
  - rewrite (build_declarations_acc defs2 d1).
    destruct (build_declarations defs2 []) as [d2|e2]; simpl; split_and!; try done.
    by intros decls1 decls2 [= <-] [= <-].
  - split_and!; done.
Qed.

(** * Further properties of the tool round *)

Section RoundFacts.
Context {Value W : Type}.
Implicit Types (self : AIGenerator Value W) (tm : ToolManager Value W).
Implicit Types (w : W) (tr evs : list (Event Value)).
Implicit Types (calls : list (types.FunctionCall Value)) (vs : list Value).
Implicit Types (cfg : types.GenerateContentConfig Value).
Implicit Types (r : types.GenerateContentResponse Value).

Lemma executes_not_provider evs calls :
  Forall2 executes evs calls → Forall (λ ev, is_provider_call ev = false) evs.
Proof.
  induction 1 as [|ev c evs calls (kw & o & _ & ->) _ IH]; by constructor.
Qed.

(** The executions of the loop follow the requests from the first on, and
    only the last of them can have raised; the loop then raises the same. *)
Lemma execute_calls_prefix tm calls :
  ∀ acc w tr res w' tr',
    execute_calls tm calls acc (w, tr) = (res, (w', tr')) →
    ∃ evs, tr' = tr ++ evs ∧
      (length evs ≤ length calls)%nat ∧
      Forall2 executes evs (take (length evs) calls) ∧
      (∀ i ev, evs !! i = Some ev → event_ok ev = false →
         S i = length evs ∧ ∃ e name kwargs,
           res = Raise e ∧ ev = ToolCall name kwargs (Raise e)) ∧
      (∀ parts, res = Ok parts → length evs = length calls).
Proof.
  induction calls as [|fn_call rest IH]; intros acc w tr res w' tr' Hrun; simpl in Hrun.
  - inversion Hrun; subst. exists []. rewrite app_nil_r.
    split_and!; [done|done|constructor|by intros []|done].
  - destruct (types.args fn_call) as [kwargs|] eqn:Hargs.
    2:{ rewrite bind_lift_Raise in Hrun. inversion Hrun; subst.
        exists []. rewrite app_nil_r.
        split_and!; [done|simpl; lia|constructor|by intros []|done]. }
    rewrite bind_lift_Ok in Hrun.
    destruct (execute_tool tm (types.name fn_call) kwargs w) as [[v|e] w1] eqn:Hexec.
    + erewrite bind_Ok in Hrun; last by rewrite call_tool_eq, Hexec.
      apply IH in Hrun as (evs & -> & Hlen & Hex & Hlast & Hok).
      exists (ToolCall (types.name fn_call) kwargs (Ok v) :: evs).
      split_and!.
      * by rewrite <-app_assoc.
      * simpl. lia.
      * simpl. constructor; [by eexists _, _|done].
      * intros [|i] ev; simpl; [by intros [= <-]|].
        intros Hi Hev. destruct (Hlast i ev Hi Hev) as [<- ?]. done.
      * intros parts Hp. simpl. by rewrite (Hok parts Hp).
    + erewrite bind_Raise in Hrun; last by rewrite call_tool_eq, Hexec.
      inversion Hrun; subst.
      exists [ToolCall (types.name fn_call) kwargs (Raise e)].
      split_and!; [done|simpl; lia| | |done].
      * simpl. constructor; [by eexists _, _|constructor].
      * intros [|[|i]] ev; simpl; try done. intros [= <-] _.
        split; [done|]. by eexists _, _, _.
Qed.

(** The loop stops, before calling the tool manager, at the first request
    that carries no arguments. *)
Lemma execute_calls_no_args tm w pre vs w2 :
  tools_return tm w pre vs w2 →
  ∀ fn_call post acc tr,
    types.args fn_call = None →
    execute_calls tm (pre ++ fn_call :: post) acc (w, tr) =
    (Raise TypeError, (w2, tr ++ zip_with tool_event pre vs)).
Proof.
  induction 1 as [w|w c kw v w1 rest vs w2 Hargs Hexec _ IH];
    intros fn_call post acc tr Ha; simpl.
  - by rewrite Ha, bind_lift_Raise, app_nil_r.
  - rewrite Hargs, bind_lift_Ok.
    erewrite bind_Ok; last by rewrite call_tool_eq, Hexec.
    erewrite IH by done. unfold tool_event at 2. rewrite Hargs. simpl.
    by rewrite <-!app_assoc.
Qed.

(** The tool round in full: its executions follow the requests; it ends
    either with an exception and nothing after the executions, or, every
    request executed and returned, with the follow-up call. *)
Lemma handle_tool_execution_run self r cs cfg tm w tr res w' tr' :
  _handle_tool_execution self r cs cfg tm (w, tr) = (res, (w', tr')) →
  ∃ evs,
    (length evs ≤ length (requests r))%nat ∧
    Forall2 executes evs (take (length evs) (requests r)) ∧
    (∀ i ev, evs !! i = Some ev → event_ok ev = false →
       S i = length evs ∧ ∃ e name kwargs,
         res = Raise e ∧ ev = ToolCall name kwargs (Raise e)) ∧
    ((∃ e, res = Raise e ∧ tr' = tr ++ evs)
     ∨ (∃ c0 parts o2,
          head (types.candidates r) = Some c0 ∧
          length evs = length (requests r) ∧
          Forall (λ ev, event_ok ev = true) evs ∧
          tr' = (tr ++ evs)
                  ++ [ProviderCall (model self)
                        ((cs ++ [types.content c0]) ++ [results_turn parts])
                        (set_tools cfg None) o2] ∧
          res = types.text <$> o2)).
Proof.
  unfold _handle_tool_execution. intros Hrun.
  destruct (types.candidates r) as [|c0 cands].
  { rewrite bind_lift_Raise in Hrun. inversion Hrun; subst.
    exists []. split_and!; [simpl; lia|constructor|by intros []|].
    left. exists IndexError. by rewrite app_nil_r. }
  rewrite bind_lift_Ok in Hrun. unfold requests.
  destruct (types.function_calls r) as [calls|].
  2:{ rewrite bind_lift_Raise in Hrun. inversion Hrun; subst.
      exists []. split_and!; [simpl; lia|constructor|by intros []|].
      left. exists TypeError. by rewrite app_nil_r. }
  rewrite bind_lift_Ok in Hrun. simpl.
  destruct (execute_calls tm calls [] (w, tr)) as [[parts|e] [w1 tr1]] eqn:Hloop.
  - destruct (execute_calls_prefix _ _ _ _ _ _ _ _ Hloop)
      as (evs & -> & Hlen & Hex & Hlast & Hok).
    erewrite bind_Ok in Hrun; last done.
    unfold mbind, M_bind in Hrun. rewrite call_provider_eq in Hrun.
    exists evs. split_and!; [done|done| |].
    { intros i ev Hi Hev. by destruct (Hlast i ev Hi Hev) as (_ & ? & ? & ? & [=] & _). }
    right. exists c0, parts.
    assert (Forall (λ ev, event_ok ev = true) evs) as Hall.
    { apply Forall_lookup. intros i ev Hi.
      destruct (event_ok ev) eqn:Hev; [done|].
      by destruct (Hlast i ev Hi Hev) as (_ & ? & ? & ? & [=] & _). }
    destruct (generate_content _ _ _ _ _) as [[r2|e] w3]; simpl in Hrun;
      inversion Hrun; subst; eexists; split_and!; try done; by eapply Hok.
  - destruct (execute_calls_prefix _ _ _ _ _ _ _ _ Hloop)
      as (evs & -> & Hlen & Hex & Hlast & _).
    erewrite bind_Raise in Hrun; last done.
    inversion Hrun; subst. exists evs. split_and!; [done|done| |].
    { intros i ev Hi Hev.
      destruct (Hlast i ev Hi Hev) as (? & e0 & name & kw & [= <-] & ->).
      split; [done|]. by eexists _, _, _. }
    left. by exists e.
Qed.

End RoundFacts.

(** A provider failure on the first call leaves [generate_response] as it
    is: that call is the only event, it is not retried, and no tool is
    executed, whatever catalog and tool manager were supplied. *)
Theorem first_call_failure_propagates {Value W} (self : AIGenerator Value W)
    (query : string) (h : option string) (tools : option (list (gmap string Value)))
    (otm : option (ToolManager Value W)) (w : W)
    (cfg : types.GenerateContentConfig Value) (e : exn) (w1 : W) :
  initial_config self h tools = Ok cfg →
  generate_content (client self) (model self) (user_message query) cfg w = (Raise e, w1) →
  let out := run (generate_response self query h tools otm) w in
  out = (Raise e, (w1, [ProviderCall (model self) (user_message query) cfg (Raise e)]))
  ∧ tool_calls out.2.2 = []
  ∧ length (provider_calls out.2.2) = 1.
Proof.
  intros Hcfg Hcall out.
  assert (Hout := generate_response_first_call self query h tools otm w cfg Hcfg).
  simpl in Hout. rewrite Hcall in Hout. simpl in Hout. fold out in Hout.
  by rewrite Hout.
Qed.

Lemma first_call_failure_propagates_witness :
  let self := Scenario.tutor Scenario.unreachable in
  let out :=
    run (generate_response self Scenario.question None
           (Some [Scenario.search_schema]) (Some Scenario.search_only)) 0 in
  out.1 = Raise (Raised "ServiceUnavailable") ∧ tool_calls out.2.2 = [].
Proof.
  intros self out.
  destruct (initial_config self None (Some [Scenario.search_schema])) as [cfg|e] eqn:Hcfg;
    [|discriminate Hcfg].
  destruct (first_call_failure_propagates self Scenario.question None
              (Some [Scenario.search_schema]) (Some Scenario.search_only) 0 cfg
              (Raised "ServiceUnavailable") 1 Hcfg eq_refl) as (Heq & Ht & _).
  split; [exact (f_equal fst Heq)|exact Ht].
Defined.

(** A provider failure on the follow-up call leaves [generate_response] as
    it is, after the tools have run: every request was executed once, the
    world is the one the failed call left, and there is no third call. *)
Theorem followup_failure_propagates {Value W} (self : AIGenerator Value W)
    (query : string) (h : option string) (tools : option (list (gmap string Value)))
    (tm : ToolManager Value W) (w : W)
    (cfg : types.GenerateContentConfig Value)
    (r : types.GenerateContentResponse Value) (w1 : W)
    (c0 : types.Candidate Value) (cands : list (types.Candidate Value))
    (calls : list (types.FunctionCall Value)) (vs : list Value) (w2 : W)
    (e : exn) (w3 : W) :
  initial_config self h tools = Ok cfg →
  generate_content (client self) (model self) (user_message query) cfg w = (Ok r, w1) →
  types.function_calls r = Some calls →
  calls ≠ [] →
  types.candidates r = c0 :: cands →
  tools_return tm w1 calls vs w2 →
  let contents2 :=
    user_message query
      ++ [types.content c0; results_turn (zip_with tool_part calls vs)] in
  generate_content (client self) (model self) contents2 (set_tools cfg None) w2
    = (Raise e, w3) →
  let out := run (generate_response self query h tools (Some tm)) w in
  out =
    (Raise e,
     (w3,
      [ProviderCall (model self) (user_message query) cfg (Ok r)]
        ++ zip_with tool_event calls vs
        ++ [ProviderCall (model self) contents2 (set_tools cfg None) (Raise e)]))
  ∧ tool_calls out.2.2 = zip_with tool_event calls vs
  ∧ length (tool_calls out.2.2) = length calls
  ∧ length (provider_calls out.2.2) = 2.
Proof.
  intros Hcfg Hcall Hf Hne Hc Hret contents2 Hcall2 out.
  assert (truthy_list (types.function_calls r) = true) as Ht.
  { rewrite Hf. by destruct calls. }
  assert (Hout := generate_response_first_call self query h tools (Some tm) w cfg Hcfg).
  simpl in Hout. rewrite Hcall in Hout. simpl in Hout. rewrite Ht in Hout.
  rewrite (handle_tool_execution_returns _ _ _ _ _ _ _ _ _ _ _ _ Hc Hf Hret) in Hout.
  fold out in Hout.
  change ((user_message query ++ [types.content c0])
            ++ [results_turn (zip_with tool_part calls vs)]) with contents2 in Hout.
  rewrite Hcall2 in Hout. simpl in Hout.
  assert (out =
    (Raise e,
     (w3,
      [ProviderCall (model self) (user_message query) cfg (Ok r)]
        ++ zip_with tool_event calls vs
        ++ [ProviderCall (model self) contents2 (set_tools cfg None) (Raise e)])))
    as Heq by done.
  assert (tool_calls out.2.2 = zip_with tool_event calls vs) as Htc.
  { rewrite Heq. cbn [fst snd]. rewrite !tool_calls_app. simpl.
    by rewrite app_nil_r, (tool_calls_tools _ (tool_events_not_provider calls vs)). }
  split_and!; [done|done| |].
  - rewrite Htc, length_zip_with.
    destruct (tools_return_lookup _ _ _ _ _ Hret) as [Hlen _]. lia.
  - rewrite Heq. cbn [fst snd]. rewrite !provider_calls_app.
    by rewrite (provider_calls_tools _ (tool_events_not_provider calls vs)).
Qed.

Lemma followup_failure_propagates_witness :
  let calls := [Scenario.search_call; Scenario.lesson4_call] in
  let self := Scenario.tutor (Scenario.drops_followup calls) in
  let out :=
    run (generate_response self Scenario.question None
           (Some [Scenario.search_schema]) (Some Scenario.search_only)) 0 in
  out.1 = Raise (Raised "ServiceUnavailable")
  ∧ length (tool_calls out.2.2) = 2.
Proof.
  intros calls self out.
  destruct (initial_config self None (Some [Scenario.search_schema])) as [cfg|e] eqn:Hcfg;
    [|discriminate Hcfg].
  assert (tools_return Scenario.search_only 1 calls
            ["Lesson 3 covers sorting algorithms."; "Lesson 3 covers sorting algorithms."] 3)
    as Hret.
  { eapply tools_return_cons; [reflexivity|reflexivity|].
    eapply tools_return_cons; [reflexivity|reflexivity|].
    apply tools_return_nil. }
  destruct (followup_failure_propagates self Scenario.question None
              (Some [Scenario.search_schema]) Scenario.search_only 0 cfg
              (Scenario.asks_for calls) 1 _ _ calls _ 3 (Raised "ServiceUnavailable") 4
              Hcfg eq_refl eq_refl ltac:(discriminate) eq_refl Hret eq_refl)
    as (Heq & _ & Hn & _).
  split; [exact (f_equal fst Heq)|exact Hn].
Defined.

(** A request without arguments, the earlier ones having been executed,
    makes [generate_response] raise [TypeError] before the tool manager is
    called for it: the later requests are not executed and no follow-up call
    is made. *)
Theorem missing_arguments_raise {Value W} (self : AIGenerator Value W)
    (query : string) (h : option string) (tools : option (list (gmap string Value)))
    (tm : ToolManager Value W) (w : W)
    (cfg : types.GenerateContentConfig Value)
    (r : types.GenerateContentResponse Value) (w1 : W)
    (c0 : types.Candidate Value) (cands : list (types.Candidate Value))
    (pre : list (types.FunctionCall Value)) (fn_call : types.FunctionCall Value)
    (post : list (types.FunctionCall Value)) (vs : list Value) (w2 : W) :
  initial_config self h tools = Ok cfg →
  generate_content (client self) (model self) (user_message query) cfg w = (Ok r, w1) →
  types.function_calls r = Some (pre ++ fn_call :: post) →
  types.candidates r = c0 :: cands →
  tools_return tm w1 pre vs w2 →
  types.args fn_call = None →
  let first := ProviderCall (model self) (user_message query) cfg (Ok r) in
  let out := run (generate_response self query h tools (Some tm)) w in
  out = (Raise TypeError, (w2, [first] ++ zip_with tool_event pre vs))
  ∧ tool_calls out.2.2 = zip_with tool_event pre vs
  ∧ length (tool_calls out.2.2) = length pre
  ∧ provider_calls out.2.2 = [first].
Proof.
  intros Hcfg Hcall Hf Hc Hret Ha first out.
  assert (truthy_list (types.function_calls r) = true) as Ht.
  { rewrite Hf. by destruct pre. }
  assert (Hout := generate_response_first_call self query h tools (Some tm) w cfg Hcfg).
  simpl in Hout. rewrite Hcall in Hout. simpl in Hout. rewrite Ht in Hout.
  unfold _handle_tool_execution in Hout.
  rewrite Hc, bind_lift_Ok, Hf, bind_lift_Ok in Hout.
  erewrite bind_Raise in Hout; last by eapply execute_calls_no_args.
  fold first out in Hout.
  assert (tool_calls out.2.2 = zip_with tool_event pre vs) as Htc.
  { rewrite Hout. cbn [fst snd]. rewrite tool_calls_app. simpl.
    by rewrite (tool_calls_tools _ (tool_events_not_provider pre vs)). }
  split_and!; [done|done| |].
  - rewrite Htc, length_zip_with.
    destruct (tools_return_lookup _ _ _ _ _ Hret) as [Hlen _]. lia.
  - rewrite Hout. cbn [fst snd]. rewrite provider_calls_app.
    by rewrite (provider_calls_tools _ (tool_events_not_provider pre vs)).
Qed.

Lemma missing_arguments_raise_witness :
  let calls := [Scenario.search_call; Scenario.bare_call; Scenario.lesson4_call] in
  let self := Scenario.tutor (Scenario.scripted calls Scenario.final_answer) in
  let out :=
    run (generate_response self Scenario.question None
           (Some [Scenario.search_schema]) (Some Scenario.search_only)) 0 in
  out.1 = Raise TypeError ∧ length (tool_calls out.2.2) = 1.
Proof.
  intros calls self out.
  destruct (initial_config self None (Some [Scenario.search_schema])) as [cfg|e] eqn:Hcfg;
    [|discriminate Hcfg].
  assert (tools_return Scenario.search_only 1 [Scenario.search_call]
            ["Lesson 3 covers sorting algorithms."] 2) as Hret.
  { eapply tools_return_cons; [reflexivity|reflexivity|]. apply tools_return_nil. }
  destruct (missing_arguments_raise self Scenario.question None
              (Some [Scenario.search_schema]) Scenario.search_only 0 cfg
              (Scenario.asks_for calls) 1 _ _
              [Scenario.search_call] Scenario.bare_call [Scenario.lesson4_call] _ 2
              Hcfg eq_refl eq_refl eq_refl Hret eq_refl)
    as (Heq & _ & Hn & _).
  split; [exact (f_equal fst Heq)|exact Hn].
Defined.

(** In every run, the tool executions are executions of the requests of the
    first response, from the first request on, one each and in order, and
    never more than there are requests; so none happens without a tool
    manager or without requests.  Only the last execution can have raised,
    and then the run raises the same exception. *)
Theorem executions_follow_requests {Value W} (self : AIGenerator Value W)
    (query : string) (h : option string) (tools : option (list (gmap string Value)))
    (otm : option (ToolManager Value W)) (w : W) :
  let out := run (generate_response self query h tools otm) w in
  let evs := tool_calls out.2.2 in
  evs = []
  ∨ ∃ cfg r tm rest,
      otm = Some tm ∧
      out.2.2 = ProviderCall (model self) (user_message query) cfg (Ok r) :: rest ∧
      (length evs ≤ length (requests r))%nat ∧
      Forall2 executes evs (take (length evs) (requests r)) ∧
      ∀ i ev, evs !! i = Some ev → event_ok ev = false →
        S i = length evs ∧ ∃ e name kwargs,
          out.1 = Raise e ∧ ev = ToolCall name kwargs (Raise e).
Proof.
  intros out evs. subst evs out.
  destruct (initial_config self h tools) as [cfg|e] eqn:Hcfg.
  2:{ left. by rewrite (generate_response_no_config _ _ _ _ _ _ _ Hcfg). }
  rewrite (generate_response_first_call _ _ _ _ _ _ _ Hcfg).
  destruct (generate_content _ _ _ _ _) as [[r|e] w1]; simpl; [|by left].
  destruct (truthy_list _), otm as [tm|]; try by left.
  destruct (_handle_tool_execution _ _ _ _ _ _) as [res [w' tr']] eqn:Hrun.
  destruct (handle_tool_execution_run _ _ _ _ _ _ _ _ _ _ Hrun)
    as (evs & Hlen & Hex & Hlast & Hend).
  right. exists cfg, r, tm.
  assert (Hnp := executes_not_provider _ _ Hex).
  destruct Hend as [(e & -> & ->)|(c0 & parts & o2 & _ & _ & _ & -> & ->)];
    cbn [fst snd].
  - exists evs. rewrite tool_calls_app, (tool_calls_tools evs Hnp). by simpl.
  - eexists (evs ++ [_]).
    rewrite !tool_calls_app, (tool_calls_tools evs Hnp). simpl.
    rewrite app_nil_r. by split_and!.
Qed.

(** Whenever a second provider call is made, it goes to the same model,
    with the first call's system instruction (the conversation history
    included), temperature 0, 800 output tokens at most and no tools; its
    contents are three turns: the user message of the first call, the
    content of the first candidate of the first response, and a user turn. *)
Theorem followup_call_shape {Value W} (self : AIGenerator Value W)
    (query : string) (h : option string) (tools : option (list (gmap string Value)))
    (otm : option (ToolManager Value W)) (w : W)
    (first : Event Value) (m : string) (contents2 : list (types.Content Value))
    (cfg2 : types.GenerateContentConfig Value)
    (o2 : result (types.GenerateContentResponse Value)) :
  let out := run (generate_response self query h tools otm) w in
  provider_calls out.2.2 = [first; ProviderCall m contents2 cfg2 o2] →
  m = model self
  ∧ types.system_instruction cfg2 = system_instruction self h
  ∧ types.temperature cfg2 = 0%Z
  ∧ types.max_output_tokens cfg2 = 800%Z
  ∧ types.tools cfg2 = None
  ∧ ∃ cfg r c0 parts,
      first = ProviderCall (model self) (user_message query) cfg (Ok r) ∧
      cfg2 = set_tools cfg None ∧
      head (types.candidates r) = Some c0 ∧
      contents2 = user_message query ++ [types.content c0; results_turn parts] ∧
      length contents2 = 3 ∧
      types.role <$> last contents2 = Some "user".
Proof.
  intros out Hp.
  destruct (generate_response_cases self query h tools otm w)
    as [(e & _ & Hout)|[(cfg & o & evs & _ & Htr & Hevs)
       |(cfg & r1 & c0 & parts & evs & o2' & Hcfg & Hc0 & Htr & Hevs & _ & _)]];
    fold out in Hout || fold out in Htr.
  - by rewrite Hout in Hp.
  - by rewrite Htr, provider_calls_app, (provider_calls_tools evs) in Hp.
  - rewrite Htr, !provider_calls_app, (provider_calls_tools evs) in Hp by done.
    injection Hp as <- <- <- <- _.
    destruct (initial_config_Ok _ _ _ _ Hcfg) as (Hs & Ht & Hm & _).
    split_and!; try done.
    by exists cfg, r1, c0, parts.
Qed.

Lemma followup_call_shape_witness :
  let self := Scenario.tutor (Scenario.scripted [Scenario.search_call] Scenario.final_answer) in
  let out :=
    run (generate_response self Scenario.question (Some "Q: hi")
           (Some [Scenario.search_schema]) (Some Scenario.search_only)) 0 in
  ∃ first m contents2 cfg2 o2,
    provider_calls out.2.2 = [first; ProviderCall m contents2 cfg2 o2]
    ∧ types.system_instruction cfg2 = system_instruction self (Some "Q: hi")
    ∧ types.tools cfg2 = None.
Proof.
  intros self out.
  eexists _, _, _, _, _. split; [reflexivity|].
  destruct (followup_call_shape self Scenario.question (Some "Q: hi")
              (Some [Scenario.search_schema]) (Some Scenario.search_only) 0
              _ _ _ _ _ eq_refl) as (_ & Hs & _ & _ & Ht & _).
  exact (conj Hs Ht).
Defined.

(** Whenever [generate_response] returns, what it returns is the [text]
    attribute of the last provider response, be it [None]; that provider
    call is the last event of the run, and no call of the run has raised. *)
Theorem answer_is_last_text {Value W} (self : AIGenerator Value W)
    (query : string) (h : option string) (tools : option (list (gmap string Value)))
    (otm : option (ToolManager Value W)) (w : W) (answer : option string) :
  let out := run (generate_response self query h tools otm) w in
  out.1 = Ok answer →
  (∃ contents cfg r_last,
     last out.2.2 = Some (ProviderCall (model self) contents cfg (Ok r_last)) ∧
     answer = types.text r_last)
  ∧ Forall (λ ev, event_ok ev = true) out.2.2.
Proof.
  intros out. subst out.
  destruct (initial_config self h tools) as [cfg|e] eqn:Hcfg.
  2:{ by rewrite (generate_response_no_config _ _ _ _ _ _ _ Hcfg). }
  rewrite (generate_response_first_call _ _ _ _ _ _ _ Hcfg).
  destruct (generate_content _ _ _ _ _) as [[r|e] w1]; simpl; [|done].
  assert (∀ a : option string, Ok (A:=option string) (types.text r) = Ok a →
    (∃ contents cfg0 r_last,
       last [ProviderCall (model self) (user_message query) cfg (Ok r)]
         = Some (ProviderCall (model self) contents cfg0 (Ok r_last)) ∧
       a = types.text r_last)
    ∧ Forall (λ ev, event_ok ev = true)
        [ProviderCall (model self) (user_message query) cfg (Ok r)]) as Hdirect.
  { intros a [= <-]. split; [by eexists _, _, _|by repeat constructor]. }
  destruct (truthy_list _), otm as [tm|]; try (by apply Hdirect).
  destruct (_handle_tool_execution _ _ _ _ _ _) as [res [w' tr']] eqn:Hrun.
  destruct (handle_tool_execution_run _ _ _ _ _ _ _ _ _ _ Hrun)
    as (evs & _ & _ & _ & [(e & -> & ->)|(c0 & parts & o2 & _ & _ & Hall & -> & ->)]);
    cbn [fst snd]; [done|].
  destruct o2 as [r2|e]; [|done].
  change (types.text <$> Ok r2) with (Ok (A:=option string) (types.text r2)).
  intros [= <-]. split.
  - eexists _, _, r2. by rewrite last_snoc.
  - apply Forall_app. split; [|by repeat constructor].
    apply Forall_app. split; [by repeat constructor|done].
Qed.

Lemma answer_is_last_text_witness :
  let self := Scenario.tutor (Scenario.scripted [Scenario.search_call] Scenario.final_answer) in
  let out :=
    run (generate_response self Scenario.question None
           (Some [Scenario.search_schema]) (Some Scenario.search_only)) 0 in
  out.1 = Ok (Some Scenario.final_answer)
  ∧ Forall (λ ev, event_ok ev = true) out.2.2.
Proof.
  intros self out. split; [reflexivity|].
  exact (proj2 (answer_is_last_text self Scenario.question None
                  (Some [Scenario.search_schema]) (Some Scenario.search_only) 0
                  (Some Scenario.final_answer) eq_refl)).
Defined.

(** * Further properties of the system instruction and the decision *)

Lemma string_app_inj_l (s t1 t2 : string) : s +:+ t1 = s +:+ t2 → t1 = t2.
Proof.
  induction s as [|a s IH]; [done|].
  change (String a s +:+ t1) with (String a (s +:+ t1)).
  change (String a s +:+ t2) with (String a (s +:+ t2)).
  intros [= H]. by apply IH.
Qed.

(** The system instruction always begins with the system prompt, and it
    tells histories apart as far as the code reads them: two histories give
    the same instruction exactly when they are equal or both falsy (absent
    or empty). *)
Theorem system_instruction_separates {Value W} (self : AIGenerator Value W)
    (h1 h2 : option string) :
  (∃ rest, system_instruction self h1 = SYSTEM_PROMPT self +:+ rest)
  ∧ (system_instruction self h1 = system_instruction self h2
     ↔ h1 = h2 ∨ (truthy_str h1 = false ∧ truthy_str h2 = false)).
Proof.
  assert (∀ s, SYSTEM_PROMPT self +:+ "" = s → s = SYSTEM_PROMPT self) as Hnil.
  { intros s <-. induction (SYSTEM_PROMPT self) as [|a p IH]; [done|].
    change (String a p +:+ "") with (String a (p +:+ "")). by rewrite IH. }
  split.
  - unfold system_instruction. destruct (truthy_str h1).
    + by eexists.
    + exists "". symmetry. by apply Hnil.
  - unfold system_instruction. split.
    + destruct (truthy_str h1) eqn:H1, (truthy_str h2) eqn:H2.
      * intros Heq%string_app_inj_l%string_app_inj_l. left.
        destruct h1 as [s1|], h2 as [s2|]; try done. simpl in Heq. by subst.
      * intros Heq%string_app_same_l. by vm_compute in Heq.
      * intros Heq. symmetry in Heq. apply string_app_same_l in Heq.
        by vm_compute in Heq.
      * by right.
    + intros [->|[-> ->]]; done.
Qed.

(** A tool manager is looked at only when the first response carries
    requests: when it carries none, the run is the same with any tool
    manager and with none. *)
Theorem tool_manager_unused_without_requests {Value W} (self : AIGenerator Value W)
    (query : string) (h : option string) (tools : option (list (gmap string Value)))
    (otm1 otm2 : option (ToolManager Value W)) (w : W) :
  (∀ cfg r w1,
     initial_config self h tools = Ok cfg →
     generate_content (client self) (model self) (user_message query) cfg w = (Ok r, w1) →
     truthy_list (types.function_calls r) = false) →
  run (generate_response self query h tools otm1) w
  = run (generate_response self query h tools otm2) w.
Proof.
  intros Hnone.
  destruct (initial_config self h tools) as [cfg|e] eqn:Hcfg.
  2:{ by rewrite !(generate_response_no_config _ _ _ _ _ _ _ Hcfg). }
  rewrite !(generate_response_first_call _ _ _ _ _ _ _ Hcfg).
  destruct (generate_content _ _ _ _ _) as [[r|e] w1] eqn:Hcall; simpl; [|done].
  by rewrite (Hnone cfg r w1 eq_refl Hcall).
Qed.

Lemma tool_manager_unused_without_requests_witness :
  let self := Scenario.tutor (Scenario.scripted [] Scenario.final_answer) in
  run (generate_response self Scenario.question None
         (Some [Scenario.search_schema]) (Some Scenario.search_only)) 0
  = run (generate_response self Scenario.question None
           (Some [Scenario.search_schema]) None) 0.
Proof.
  intros self.
  apply (tool_manager_unused_without_requests self Scenario.question None
           (Some [Scenario.search_schema]) (Some Scenario.search_only) None 0).
  intros cfg r w1 _ Hcall. vm_compute in Hcall.
  injection Hcall as <- _. reflexivity.
Defined.
